(** * result4js: the [Result] container of [src/index.ts]

    A shallow embedding of the two classes [Success] and [Failure], of
    the factory functions [Ok] and [Err], and of the [sum] example that
    the sources use to illustrate them.

    - A JavaScript call either returns a value or throws one; this is a
      [Completion].
    - A caller-supplied [mapper] callback may read and write the rest of
      the program state; that state is threaded explicitly, and every
      call of a callback is counted.
    - The field [data] is declared [public] and not [readonly], so client
      code may read and assign it, and so may a mapper callback that
      holds the instance; [_tag] is [private readonly]. *)

From Stdlib Require Import Bool String List Arith PrimFloat FloatAxioms.
Import ListNotations.

Set Implicit Arguments.
Local Open Scope string_scope.

(** ** Completions: [return v] and [throw x] *)

Inductive Completion (R X : Type) : Type :=
| Return (v : R)
| Throw (x : X).

Arguments Return {R X} v.
Arguments Throw {R X} x.

Definition raises {R X : Type} (c : Completion R X) : bool :=
  match c with
  | Return _ => false
  | Throw _ => true
  end.

(** The value a completion carries, whichever way it ended. *)
Definition carried {U : Type} (c : Completion U U) : U :=
  match c with
  | Return v => v
  | Throw x => x
  end.

(** ** The ambient program state seen by callbacks *)

Record World (W : Type) : Type := MkWorld
  { store : W;            (* whatever a callback can read and write *)
    invocations : nat }.  (* number of callback calls performed so far *)

(** ** [mapper: string | ((data: E) => unknown)]

    [M] is the type of the non-callable mapper values ([string] in the
    declared signature), [U] stands for [unknown]. A callable mapper may
    return or throw, and may change the store. *)

Inductive Mapper (W E M U : Type) : Type :=
| Fixed (m : M)
| Fn (f : E -> W -> Completion U U * W).

Arguments Fixed {W E M U} m.
Arguments Fn {W E M U} f.

(** The call expression [f(e)]: run the callback on the store and count
    the call. *)
Definition call {W E U : Type}
    (f : E -> W -> Completion U U * W) (e : E) (w : World W)
    : Completion U U * World W :=
  let (c, s) := f e (store w) in
  (c, {| store := s; invocations := 1 + invocations w |}).

(** ** [class Success<S, E> extends Base<S, E>] *)

Module Success.
Section Methods.
Variables S E W M U : Type.

(* private readonly _tag = "Success"; *)
Definition _tag (data : S) : string := "Success".

Definition throw (data : S) : Completion S E := Return data.

Definition throwMap (data : S) (mapper : Mapper W E M U) (w : World W)
    : Completion S (M + U) * World W :=
  (Return data, w).

Definition or (data : S) (defaultValue : S) : S := data.

Definition isOk (data : S) : bool := true.

Definition isErr (data : S) : bool := false.
End Methods.
End Success.

(** ** [class Failure<S, E> extends Base<S, E>] *)

Module Failure.
Section Methods.
Variables S E W M U : Type.

(* private readonly _tag = "Failure"; *)
Definition _tag (data : E) : string := "Failure".

Definition throw (data : E) : Completion S E := Throw data.

Definition throwMap (data : E) (mapper : Mapper W E M U) (w : World W)
    : Completion S (M + U) * World W :=
  match mapper with
  (* if (typeof mapper === "function") throw mapper(this.data); *)
  | Fn f => let (c, w') := call f data w in (Throw (inr (carried c)), w')
  (* throw mapper; *)
  | Fixed m => (Throw (inl m), w)
  end.

Definition or (data : E) (defaultValue : S) : S := defaultValue.

Definition isOk (data : E) : bool := false.

Definition isErr (data : E) : bool := true.
End Methods.
End Failure.

(** ** [type Result<S, E> = Success<S, E> | Failure<S, E>] *)

Inductive Result (S E : Type) : Type :=
| Success (data : S)
| Failure (data : E).

Arguments Success {S E} data.
Arguments Failure {S E} data.

(** ** Factory functions *)

Definition Ok {S E : Type} (data : S) : Result S E := Success data.

Definition Err {E S : Type} (error : E) : Result S E := Failure error.

(** ** [abstract class Base<S, E>]: a method call on a [Result] runs the
    body of the class the instance was built from. *)

Module Base.
Section Dispatch.
Variables S E W M U : Type.

Definition _tag (this : Result S E) : string :=
  match this with
  | Success data => Success._tag data
  | Failure data => Failure._tag data
  end.

Definition throw (this : Result S E) : Completion S E :=
  match this with
  | Success data => Success.throw E data
  | Failure data => Failure.throw S data
  end.

Definition throwMap (this : Result S E) (mapper : Mapper W E M U)
    (w : World W) : Completion S (M + U) * World W :=
  match this with
  | Success data => Success.throwMap data mapper w
  | Failure data => Failure.throwMap S data mapper w
  end.

Definition or (this : Result S E) (defaultValue : S) : S :=
  match this with
  | Success data => Success.or data defaultValue
  | Failure data => Failure.or data defaultValue
  end.

Definition isOk (this : Result S E) : bool :=
  match this with
  | Success data => Success.isOk data
  | Failure data => Failure.isOk data
  end.

Definition isErr (this : Result S E) : bool :=
  match this with
  | Success data => Success.isErr data
  | Failure data => Failure.isErr data
  end.

(** The public field [data], of type [S] on a [Success] and [E] on a
    [Failure]: read as [S | E] on the union. *)
Definition data (this : Result S E) : S + E :=
  match this with
  | Success data => inl data
  | Failure data => inr data
  end.
End Dispatch.
End Base.

(** ** Client programs

    What code holding an instance can do with it through the exported
    interface: call one of the five methods, read [data], or assign
    [data] after narrowing the union with [isOk()] / [isErr()] (the
    assignment type-checks because the field is not [readonly]). *)

Section Client.
Variables S E W M U : Type.

Inductive Method : Type :=
| CallIsOk
| CallIsErr
| CallOr (defaultValue : S)
| CallThrow
| CallThrowMap (mapper : Mapper W E M U).

Inductive Access : Type :=
| Invoke (m : Method)
| ReadData
| AssignIfOk (v : S)     (* if (r.isOk()) r.data = v; *)
| AssignIfErr (v : E).   (* if (r.isErr()) r.data = v; *)

(** Values a method call or field read can produce. *)
Inductive Answer : Type :=
| ABool (b : bool)
| AValue (s : S)
| AError (e : E)
| ADone.

(** Values that can be thrown out of a method call. *)
Inductive Signal : Type :=
| SPayload (e : E)
| SFixed (m : M)
| SMapped (u : U).

Definition signal_of (x : M + U) : Signal :=
  match x with
  | inl m => SFixed m
  | inr u => SMapped u
  end.

Definition lift {R X R' X' : Type} (fr : R -> R') (fx : X -> X')
    (c : Completion R X) : Completion R' X' :=
  match c with
  | Return v => Return (fr v)
  | Throw x => Throw (fx x)
  end.

(** One method call on [this]: its completion and the world afterwards.
    No method body assigns a field of [this]; what a callback that holds
    the instance does to its field is accounted for in [shared_invoke]
    below. *)
Definition invoke (m : Method) (this : Result S E) (w : World W)
    : Completion Answer Signal * World W :=
  match m with
  | CallIsOk => (Return (ABool (Base.isOk this)), w)
  | CallIsErr => (Return (ABool (Base.isErr this)), w)
  | CallOr d => (Return (AValue (Base.or this d)), w)
  | CallThrow => (lift AValue SPayload (Base.throw this), w)
  | CallThrowMap mapper =>
      let (c, w') := Base.throwMap this mapper w in
      (lift AValue signal_of c, w')
  end.

Definition answer_of_data (d : S + E) : Answer :=
  match d with
  | inl s => AValue s
  | inr e => AError e
  end.

(** One access: its completion, the instance afterwards, the world
    afterwards. Callbacks here act on the store only; [shared_access]
    below lets them reach the instance. *)
Definition access (a : Access) (this : Result S E) (w : World W)
    : Completion Answer Signal * Result S E * World W :=
  match a with
  | Invoke m => let (c, w') := invoke m this w in (c, this, w')
  | ReadData => (Return (answer_of_data (Base.data this)), this, w)
  | AssignIfOk v =>
      match this with
      | Success _ => (Return ADone, Success v, w)
      | Failure _ => (Return ADone, this, w)
      end
  | AssignIfErr v =>
      match this with
      | Success _ => (Return ADone, this, w)
      | Failure _ => (Return ADone, Failure v, w)
      end
  end.

Definition instance_after (a : Access) (this : Result S E) (w : World W)
    : Result S E :=
  snd (fst (access a this w)).

(** A sequence of accesses to one instance; a thrown signal is caught
    by the client, which carries on with the next access. *)
Fixpoint accesses (p : list Access) (this : Result S E) (w : World W)
    : Result S E * World W :=
  match p with
  | [] => (this, w)
  | a :: p' =>
      let '(_, this', w') := access a this w in accesses p' this' w'
  end.

(** The two factory calls; each one returns the instance built by
    [new Success(data)] or [new Failure(error)]. *)
Inductive Factory : Type :=
| CallOk (data : S)
| CallErr (error : E).

Definition construct (c : Factory) : Completion (Result S E) Signal :=
  match c with
  | CallOk data => Return (Ok data)
  | CallErr error => Return (Err error)
  end.

Definition is_throwing_method (m : Method) : bool :=
  match m with
  | CallThrow | CallThrowMap _ => true
  | CallIsOk | CallIsErr | CallOr _ => false
  end.

(** Accesses that assign the field. *)
Definition is_assignment (a : Access) : bool :=
  match a with
  | AssignIfOk _ | AssignIfErr _ => true
  | Invoke _ | ReadData => false
  end.

(** A mapper is pure when, if callable, it leaves the store alone and
    its result does not depend on the store. *)
Definition pure_mapper (mapper : Mapper W E M U) : Prop :=
  match mapper with
  | Fixed _ => True
  | Fn f => forall e s s', snd (f e s) = s /\ fst (f e s) = fst (f e s')
  end.

Definition pure_method (m : Method) : Prop :=
  match m with
  | CallThrowMap mapper => pure_mapper mapper
  | _ => True
  end.
End Client.

Arguments CallIsOk {S E W M U}.
Arguments CallIsErr {S E W M U}.
Arguments CallOr {S E W M U} defaultValue.
Arguments CallThrow {S E W M U}.
Arguments CallThrowMap {S E W M U} mapper.
Arguments CallOk {S E} data.
Arguments CallErr {S E} error.
Arguments Invoke {S E W M U} m.
Arguments ReadData {S E W M U}.
Arguments AssignIfOk {S E W M U} v.
Arguments AssignIfErr {S E W M U} v.
Arguments ABool {S E} b.
Arguments AValue {S E} s.
Arguments AError {S E} e.
Arguments ADone {S E}.
Arguments SPayload {E M U} e.
Arguments SFixed {E M U} m.
Arguments SMapped {E M U} u.

(** ** JavaScript values reaching [sum(a: any, b: any)]

    The primitive values undefined, null, booleans, numbers and strings;
    numbers are IEEE 754 binary64. Objects (arrays and functions among
    them), bigints and symbols are not covered: what is proved of a
    [sum] below is proved for arguments among these primitives. *)

Inductive value : Type :=
| VUndefined
| VNull
| VBoolean (b : bool)
| VNumber (n : float)
| VString (s : string).

Definition typeof (v : value) : string :=
  match v with
  | VUndefined => "undefined"
  | VNull => "object"
  | VBoolean _ => "boolean"
  | VNumber _ => "number"
  | VString _ => "string"
  end.

Definition is_string (v : value) : bool :=
  match v with
  | VString _ => true
  | _ => false
  end.

Section Host.
(** The host's conversions between numbers and strings. *)
Variable NumberToString : float -> string.
Variable StringToNumber : string -> float.

Definition ToString (v : value) : string :=
  match v with
  | VUndefined => "undefined"
  | VNull => "null"
  | VBoolean true => "true"
  | VBoolean false => "false"
  | VNumber n => NumberToString n
  | VString s => s
  end.

Definition ToNumber (v : value) : float :=
  match v with
  | VUndefined => nan
  | VNull => 0%float
  | VBoolean true => 1%float
  | VBoolean false => 0%float
  | VNumber n => n
  | VString s => StringToNumber s
  end.

(** The operator [+] on primitives (ECMAScript's
    ApplyStringOrNumericBinaryOperator): concatenation as soon as one
    operand is a string, numeric addition otherwise. *)
Definition js_add (l r : value) : value :=
  if is_string l || is_string r
  then VString (ToString l ++ ToString r)
  else VNumber (ToNumber l + ToNumber r)%float.

Definition not_numbers : string := "Both arguments are not numbers".

(** The [sum] example in the documentation comments of [index.ts]:
    [if (typeof a !== "number" && typeof b !== "number") return Err(..);
     return Ok(a + b);] *)
Definition sum (a b : value) : Result value string :=
  if negb (typeof a =? "number")%string && negb (typeof b =? "number")%string
  then Err not_numbers
  else Ok (js_add a b).

(** The [sum] of the test suite (and of the README), whose guard is
    [typeof a !== "number" || typeof b !== "number"]. *)
Definition test_sum (a b : value) : Result value string :=
  if negb (typeof a =? "number")%string || negb (typeof b =? "number")%string
  then Err not_numbers
  else Ok (js_add a b).

(** What the documentation says of [sum]: [Ok(a + b)] on two numbers,
    the error otherwise. *)
Definition sum_documented (a b : value) : Result value string :=
  match a, b with
  | VNumber x, VNumber y => Ok (VNumber (x + y)%float)
  | _, _ => Err not_numbers
  end.
End Host.

(** ** Callback calls asked for by a client program *)

Section Counting.
Variables S E W M U : Type.

(** [r.throwMap(f)] with a callable [f]. *)
Definition calls_function_mapper (a : Access S E W M U) : bool :=
  match a with
  | Invoke (CallThrowMap (Fn _)) => true
  | _ => false
  end.

Definition function_mapper_calls (p : list (Access S E W M U)) : nat :=
  length (filter calls_function_mapper p).
End Counting.

(** ** Callbacks that hold the instance

    A mapper is a closure: it may hold the very instance it is passed
    to, and since [data] is public and not [readonly] it may read and
    assign that field while [throwMap] runs. Here the store a callback
    works on is a pair: the rest of the program state, and the field
    [data] of the failure instance whose [throwMap] calls it. Before a
    method runs the field is what the instance holds; after it the
    instance holds what the callback left in the field. Only the bodies
    of [Failure] call a mapper, and an object keeps its class, so a
    success instance is never reached this way. *)

Section Shared.
Variables S E W M U : Type.

Definition bind_field (this : Result S E) (w : World (W * E))
    : World (W * E) :=
  match this with
  | Success _ => w
  | Failure data =>
      {| store := (fst (store w), data); invocations := invocations w |}
  end.

Definition read_back (this : Result S E) (w : World (W * E)) : Result S E :=
  match this with
  | Success data => Success data
  | Failure _ => Failure (snd (store w))
  end.

(** One method call: its completion, the instance and the world
    afterwards. *)
Definition shared_invoke (m : Method S E (W * E) M U) (this : Result S E)
    (w : World (W * E))
    : Completion (Answer S E) (Signal E M U) * Result S E * World (W * E) :=
  let (c, w') := invoke m this (bind_field this w) in
  (c, read_back this w', w').

(** One access; reads and client assignments are as in [access]. *)
Definition shared_access (a : Access S E (W * E) M U) (this : Result S E)
    (w : World (W * E))
    : Completion (Answer S E) (Signal E M U) * Result S E * World (W * E) :=
  match a with
  | Invoke m => shared_invoke m this w
  | ReadData | AssignIfOk _ | AssignIfErr _ => access a this w
  end.

(** A client program: the completions of its accesses in order, the
    instance and the world at the end. *)
Fixpoint shared_accesses (p : list (Access S E (W * E) M U))
    (this : Result S E) (w : World (W * E))
    : list (Completion (Answer S E) (Signal E M U))
      * Result S E * World (W * E) :=
  match p with
  | [] => ([], this, w)
  | a :: p' =>
      let '(c, this', w') := shared_access a this w in
      let '(cs, this'', w'') := shared_accesses p' this' w' in
      (c :: cs, this'', w'')
  end.

Definition shared_outcomes (p : list (Access S E (W * E) M U))
    (this : Result S E) (w : World (W * E))
    : list (Completion (Answer S E) (Signal E M U)) :=
  fst (fst (shared_accesses p this w)).

Definition shared_instance (p : list (Access S E (W * E) M U))
    (this : Result S E) (w : World (W * E)) : Result S E :=
  snd (fst (shared_accesses p this w)).

Definition shared_world (p : list (Access S E (W * E) M U))
    (this : Result S E) (w : World (W * E)) : World (W * E) :=
  snd (shared_accesses p this w).

(** Accesses through which the payload can be replaced: an assignment,
    or a [throwMap] given a function. *)
Definition may_replace_payload (a : Access S E (W * E) M U) : bool :=
  is_assignment a || calls_function_mapper a.

(** What the documentation comments of [Base] say one call gives: the
    discriminators tell the variant, [or] gives the success value or the
    default, [throw] gives the success value or throws the error,
    [throwMap] gives the success value or throws the mapped error. *)
Definition documented (m : Method S E (W * E) M U) (this : Result S E)
    (s : W * E) : Completion (Answer S E) (Signal E M U) :=
  match this with
  | Success success =>
      match m with
      | CallIsOk => Return (ABool true)
      | CallIsErr => Return (ABool false)
      | CallOr _ | CallThrow | CallThrowMap _ => Return (AValue success)
      end
  | Failure error =>
      match m with
      | CallIsOk => Return (ABool false)
      | CallIsErr => Return (ABool true)
      | CallOr defaultValue => Return (AValue defaultValue)
      | CallThrow => Throw (SPayload error)
      | CallThrowMap (Fixed message) => Throw (SFixed message)
      | CallThrowMap (Fn f) => Throw (SMapped (carried (fst (f error s))))
      end
  end.
End Shared.

(** ** The test suite: [describe("Result", ...)] *)

(** [Object.is] on primitives, which [expect(x).toBe(y)] compares with:
    one NaN, and two zeros that differ. *)
Definition same_value (l r : value) : bool :=
  match l, r with
  | VUndefined, VUndefined => true
  | VNull, VNull => true
  | VBoolean a, VBoolean b => Bool.eqb a b
  | VNumber x, VNumber y => PrimFloat.Leibniz.eqb x y
  | VString s, VString t => (s =? t)%string
  | _, _ => false
  end.

(** [===] on primitives: numbers compare as IEEE 754 says. *)
Definition strict_equals (l r : value) : bool :=
  match l, r with
  | VUndefined, VUndefined => true
  | VNull, VNull => true
  | VBoolean a, VBoolean b => Bool.eqb a b
  | VNumber x, VNumber y => PrimFloat.eqb x y
  | VString s, VString t => (s =? t)%string
  | _, _ => false
  end.

(** What [result.throw()] hands over, returned or thrown. *)
Definition outcome_value (result : Result value string) : value :=
  match Base.throw result with
  | Return v => v
  | Throw error => VString error
  end.

Module ResultTest.
Section Suite.
Variable NumberToString : float -> string.
Variable StringToNumber : string -> float.

(** The function under test; the suite itself runs [test_sum]. *)
Variable sum : value -> value -> Result value string.

Definition data : list (value * value * value) :=
  [ (VNumber 1, VNumber 2, VNumber 3);
    (VNumber 3, VNumber 4, VNumber 7);
    (VString "a", VNumber 2, VString "Both arguments are not numbers");
    (VNumber 1, VString "b", VString "Both arguments are not numbers");
    (VString "a", VString "b", VString "Both arguments are not numbers");
    (VNumber 1, VString "2", VString "Both arguments are not numbers") ].

(** The callback of [test(..)] on a row [[a, b, c]]: [true] when every
    [expect] holds. An [expect] that fails throws; the one inside [try]
    then lands in [catch], whose own [expect] compares the assertion
    error with [c] and fails as well. *)
Definition test (row : value * value * value) : bool :=
  let '(a, b, c) := row in
  let result := sum a b in
  let isOk := Base.isOk result in
  (if isOk
   then negb (same_value c (VString "Both arguments are not numbers"))
   else true)
  && (if negb isOk
      then same_value c (VString "Both arguments are not numbers")
      else true)
  && same_value
       (Base.or result (VNumber 0))
       (if strict_equals c (VString "Both arguments are not numbers")
        then VNumber 0
        else js_add NumberToString StringToNumber a b)
  && match Base.throw result with
     | Return v => same_value v c
     | Throw error => same_value (VString error) c
     end.
End Suite.
End ResultTest.

(** ** Fixtures of the scenarios

    Instances with numbers as success payloads and strings as errors; the
    store is a counter. *)

Definition w0 : World nat := {| store := 0; invocations := 0 |}.

(** [msg => "wrapped: " + msg], also counting its own calls in the
    store. *)
Definition wrap (msg : string) (s : nat) : Completion string string * nat :=
  (Return ("wrapped: " ++ msg), 1 + s).

Definition by_wrap : Method nat string nat string string :=
  CallThrowMap (Fn wrap).

Definition bad_input : Result nat string := Err "bad input".

(** The same with callbacks that hold the instance [bad_input]. *)
Definition w1 : World (nat * string) :=
  {| store := (0, ""); invocations := 0 |}.

(** [msg => "wrapped: " + msg] *)
Definition wrapping (msg : string) (s : nat * string)
    : Completion string string * (nat * string) :=
  (Return ("wrapped: " ++ msg), s).

(** [msg => { if (r.isErr()) r.data = "changed"; return "x"; }] *)
Definition changing (msg : string) (s : nat * string)
    : Completion string string * (nat * string) :=
  (Return "x", (fst s, "changed")).

Definition by_wrapping : Method nat string (nat * string) string string :=
  CallThrowMap (Fn wrapping).

Definition by_changing : Method nat string (nat * string) string string :=
  CallThrowMap (Fn changing).

(** A host for the scenarios of [sum]: the only number they format is
    [2], and [+] never converts a string to a number. *)
Definition two_as_string (n : float) : string := "2".

Definition no_parsing (s : string) : float := nan.

(** * Properties *)

(** ** The discriminators *)

Section Discriminators.
Variables S E : Type.

(** The union is closed: an instance comes from [Ok] or from [Err]. *)
Lemma constructed (r : Result S E) :
  (exists x, r = Ok x) \/ (exists e, r = Err e).
Proof.
  destruct r as [x | e]; [left; exists x | right; exists e]; reflexivity.
Qed.

Lemma isErr_negb_isOk (r : Result S E) : Base.isErr r = negb (Base.isOk r).
Proof. destruct r; reflexivity. Qed.

(** C1. On every instance exactly one of [isOk()] and [isErr()] answers
    [true]: never both, never neither. An instance built by [Ok]
    answers [true] to [isOk()], an instance built by [Err] answers
    [true] to [isErr()]. *)
Theorem C1_exactly_one_of_isOk_isErr :
  (forall r : Result S E,
      xorb (Base.isOk r) (Base.isErr r) = true
      /\ Base.isOk r && Base.isErr r = false
      /\ Base.isOk r || Base.isErr r = true)
  /\ (forall x : S,
        Base.isOk (Ok x : Result S E) = true
        /\ Base.isErr (Ok x : Result S E) = false)
  /\ (forall e : E,
        Base.isErr (Err e : Result S E) = true
        /\ Base.isOk (Err e : Result S E) = false).
Proof.
  split; [| split].
  - intro r. rewrite isErr_negb_isOk.
    destruct (Base.isOk r); repeat split; reflexivity.
  - intro x. split; reflexivity.
  - intro e. split; reflexivity.
Qed.
End Discriminators.

(** ** Extraction: [throw], [or], [data] *)

Section Extraction.
Variables S E : Type.

(** C2. [Ok(x).throw()] returns [x]; [Err(e).throw()] throws [e]
    itself, with nothing wrapped around it. *)
Theorem C2_throw_passthrough :
  (forall x : S, Base.throw (Ok x : Result S E) = Return x)
  /\ (forall e : E, Base.throw (Err e : Result S E) = Throw e).
Proof. split; intro; reflexivity. Qed.

(** C4. [Ok(x).or(d)] is [x], whatever the default [d];
    [Err(e).or(d)] is [d]. *)
Theorem C4_or_identity :
  (forall (x d : S), Base.or (Ok x : Result S E) d = x)
  /\ (forall (e : E) (d : S), Base.or (Err e : Result S E) d = d).
Proof. split; intros; reflexivity. Qed.

(** C9. The payload is the public field [data] on both variants:
    [Ok(x).data] is [x] and [Err(e).data] is [e], and a client reads it
    directly, with no method call before, the instance and the world
    staying as they are. *)
Theorem C9_data_field_exposes_payload (W M U : Type) :
  (forall x : S, Base.data (Ok x : Result S E) = inl x)
  /\ (forall e : E, Base.data (Err e : Result S E) = inr e)
  /\ (forall (x : S) (w : World W),
        access (ReadData : Access S E W M U) (Ok x) w
        = (Return (AValue x), Ok x, w))
  /\ (forall (e : E) (w : World W),
        access (ReadData : Access S E W M U) (Err e) w
        = (Return (AError e), Err e, w)).
Proof. repeat split. Qed.
End Extraction.

(** ** [throwMap] and its mapper *)

Section ThrowMap.
Variables S E W M U : Type.

Lemma call_spec (f : E -> W -> Completion U U * W) (e : E) (w : World W) :
  call f e w
  = (fst (f e (store w)),
     {| store := snd (f e (store w)); invocations := 1 + invocations w |}).
Proof. unfold call. destruct (f e (store w)); reflexivity. Qed.

(** C3. On [Err(e)], a function mapper [f] is called exactly once, on
    [e], and what [f(e)] yields is the thrown value; a fixed mapper [m]
    is thrown as it is and nothing is called. *)
Theorem C3_throwMap_on_failure :
  (forall (e : E) (f : E -> W -> Completion U U * W) (w : World W),
      Base.throwMap (Err e : Result S E) (Fn f : Mapper W E M U) w
      = (Throw (inr (carried (fst (f e (store w))))),
         {| store := snd (f e (store w));
            invocations := 1 + invocations w |}))
  /\ (forall (e : E) (f : E -> W -> Completion U U * W) (w : World W)
             (v : U) (s : W),
        f e (store w) = (Return v, s) ->
        Base.throwMap (Err e : Result S E) (Fn f : Mapper W E M U) w
        = (Throw (inr v),
           {| store := s; invocations := 1 + invocations w |}))
  /\ (forall (e : E) (m : M) (w : World W),
        Base.throwMap (Err e : Result S E) (Fixed m : Mapper W E M U) w
        = (Throw (inl m), w)).
Proof.
  split; [| split].
  - intros e f w. cbn. rewrite call_spec. reflexivity.
  - intros e f w v s Hf. cbn. rewrite call_spec, Hf. reflexivity.
  - intros e m w. reflexivity.
Qed.

(** C5. On [Ok(x)], [throwMap(mapper)] returns [x] for every mapper,
    callable or not; the mapper is not called and the world is left as
    it was, so a mapper with side effects has none here. *)
Theorem C5_throwMap_on_success_ignores_mapper :
  forall (x : S) (mapper : Mapper W E M U) (w : World W),
    Base.throwMap (Ok x : Result S E) mapper w = (Return x, w)
    /\ invocations (snd (Base.throwMap (Ok x : Result S E) mapper w))
       = invocations w
    /\ store (snd (Base.throwMap (Ok x : Result S E) mapper w)) = store w.
Proof. intros x mapper w. repeat split. Qed.

Lemma invoke_raises (m : Method S E W M U) (r : Result S E) (w : World W) :
  raises (fst (invoke m r w)) = is_throwing_method m && Base.isErr r.
Proof.
  destruct m as [| | d | | mapper]; try reflexivity.
  - destruct r; reflexivity.
  - destruct r as [x | e]; [reflexivity |].
    destruct mapper as [fixed | f]; [reflexivity |].
    cbn. rewrite call_spec. reflexivity.
Qed.

(** C6. [Ok] and [Err] return an instance and never throw; [isOk()],
    [isErr()] and [or(d)] return on every instance of either variant,
    for every payload and default; a call throws exactly when it is
    [throw()] or [throwMap(..)] on a failure instance. *)
Theorem C6_only_throw_and_throwMap_raise :
  (forall c : Factory S E, raises (construct M U c) = false)
  /\ (forall (r : Result S E) (w : World W),
        invoke (CallIsOk : Method S E W M U) r w
        = (Return (ABool (Base.isOk r)), w))
  /\ (forall (r : Result S E) (w : World W),
        invoke (CallIsErr : Method S E W M U) r w
        = (Return (ABool (Base.isErr r)), w))
  /\ (forall (r : Result S E) (d : S) (w : World W),
        invoke (CallOr d : Method S E W M U) r w
        = (Return (AValue (Base.or r d)), w))
  /\ (forall (m : Method S E W M U) (r : Result S E) (w : World W),
        raises (fst (invoke m r w)) = true <->
        (is_throwing_method m = true /\ Base.isErr r = true)).
Proof.
  split; [| split; [| split; [| split]]]; try reflexivity.
  - intros [data | error]; reflexivity.
  - intros m r w. rewrite invoke_raises. apply andb_true_iff.
Qed.
End ThrowMap.

(** ** Accesses with callbacks that act on the store only *)

Section Permanence.
Variables S E W M U : Type.

Lemma accesses_cons (a : Access S E W M U) (p : list (Access S E W M U))
    (this : Result S E) (w : World W) :
  accesses (a :: p) this w
  = accesses p (instance_after a this w) (snd (access a this w)).
Proof.
  unfold instance_after. cbn [accesses].
  destruct (access a this w) as [[c this'] w']. reflexivity.
Qed.

Lemma invoke_keeps_instance (m : Method S E W M U) (this : Result S E)
    (w : World W) :
  instance_after (Invoke m) this w = this.
Proof.
  unfold instance_after. cbn [access].
  destruct (invoke m this w). reflexivity.
Qed.

Lemma access_keeps_variant (a : Access S E W M U) (this : Result S E)
    (w : World W) :
  Base.isOk (instance_after a this w) = Base.isOk this.
Proof.
  destruct a as [m | | v | v].
  - rewrite invoke_keeps_instance. reflexivity.
  - reflexivity.
  - destruct this; reflexivity.
  - destruct this; reflexivity.
Qed.

End Permanence.

(** ** Callbacks that hold the instance *)

Section SharedInstance.
Variables S E W M U : Type.

Lemma shared_instance_cons (a : Access S E (W * E) M U)
    (p : list (Access S E (W * E) M U)) (this : Result S E)
    (w : World (W * E)) :
  shared_instance (a :: p) this w
  = shared_instance p (snd (fst (shared_access a this w)))
                      (snd (shared_access a this w)).
Proof.
  unfold shared_instance. cbn [shared_accesses].
  destruct (shared_access a this w) as [[c this'] w']. cbn [fst snd].
  destruct (shared_accesses p this' w') as [[cs this''] w'']. reflexivity.
Qed.

Lemma shared_outcomes_cons (a : Access S E (W * E) M U)
    (p : list (Access S E (W * E) M U)) (this : Result S E)
    (w : World (W * E)) :
  shared_outcomes (a :: p) this w
  = fst (fst (shared_access a this w))
    :: shared_outcomes p (snd (fst (shared_access a this w)))
                         (snd (shared_access a this w)).
Proof.
  unfold shared_outcomes. cbn [shared_accesses].
  destruct (shared_access a this w) as [[c this'] w']. cbn [fst snd].
  destruct (shared_accesses p this' w') as [[cs this''] w'']. reflexivity.
Qed.

Lemma shared_world_cons (a : Access S E (W * E) M U)
    (p : list (Access S E (W * E) M U)) (this : Result S E)
    (w : World (W * E)) :
  shared_world (a :: p) this w
  = shared_world p (snd (fst (shared_access a this w)))
                   (snd (shared_access a this w)).
Proof.
  unfold shared_world. cbn [shared_accesses].
  destruct (shared_access a this w) as [[c this'] w']. cbn [fst snd].
  destruct (shared_accesses p this' w') as [[cs this''] w'']. reflexivity.
Qed.

Lemma shared_invoke_spec (m : Method S E (W * E) M U) (this : Result S E)
    (w : World (W * E)) :
  shared_invoke m this w
  = (fst (invoke m this (bind_field this w)),
     read_back this (snd (invoke m this (bind_field this w))),
     snd (invoke m this (bind_field this w))).
Proof.
  unfold shared_invoke.
  destruct (invoke m this (bind_field this w)). reflexivity.
Qed.

Lemma read_back_keeps_variant (this : Result S E) (w : World (W * E)) :
  Base.isOk (read_back this w) = Base.isOk this.
Proof. destruct this; reflexivity. Qed.

Lemma shared_access_keeps_variant (a : Access S E (W * E) M U)
    (this : Result S E) (w : World (W * E)) :
  Base.isOk (snd (fst (shared_access a this w))) = Base.isOk this.
Proof.
  destruct a as [m | | v | v]; cbn [shared_access].
  - rewrite shared_invoke_spec. apply read_back_keeps_variant.
  - reflexivity.
  - destruct this; reflexivity.
  - destruct this; reflexivity.
Qed.

Lemma shared_accesses_keep_variant (p : list (Access S E (W * E) M U)) :
  forall (this : Result S E) (w : World (W * E)),
    Base.isOk (shared_instance p this w) = Base.isOk this.
Proof.
  induction p as [| a p IH]; intros this w.
  - reflexivity.
  - rewrite shared_instance_cons, IH. apply shared_access_keeps_variant.
Qed.

(** The bodies assign nothing: short of a callback, a call hands the
    instance back as it got it. *)
Lemma shared_invoke_keeps_instance (m : Method S E (W * E) M U)
    (this : Result S E) (w : World (W * E)) :
  Base.isOk this || negb (calls_function_mapper (Invoke m)) = true ->
  snd (fst (shared_invoke m this w)) = this.
Proof.
  rewrite shared_invoke_spec. cbn [fst snd].
  destruct this as [x | e]; [reflexivity |].
  destruct m as [| | d | | [fixed | f]]; try reflexivity.
  intro H. discriminate H.
Qed.

Lemma shared_access_keeps_instance (a : Access S E (W * E) M U)
    (this : Result S E) (w : World (W * E)) :
  is_assignment a = false ->
  Base.isOk this || negb (calls_function_mapper a) = true ->
  snd (fst (shared_access a this w)) = this.
Proof.
  destruct a as [m | | v | v]; intros Ha Hc; try discriminate Ha.
  - apply shared_invoke_keeps_instance, Hc.
  - reflexivity.
Qed.

Lemma shared_accesses_keep_instance (p : list (Access S E (W * E) M U)) :
  forall (this : Result S E) (w : World (W * E)),
    forallb (fun a => negb (is_assignment a)) p = true ->
    Base.isOk this
    || forallb (fun a => negb (calls_function_mapper a)) p = true ->
    shared_instance p this w = this.
Proof.
  induction p as [| a p IH]; intros this w Hp Hc.
  - reflexivity.
  - cbn [forallb] in Hp, Hc.
    apply andb_true_iff in Hp. destruct Hp as [Ha Hp].
    apply negb_true_iff in Ha.
    assert (Hone : Base.isOk this || negb (calls_function_mapper a) = true).
    { destruct (Base.isOk this); [reflexivity |].
      cbn in Hc |- *. apply andb_true_iff in Hc. apply Hc. }
    assert (Hrest : Base.isOk this
                    || forallb (fun a => negb (calls_function_mapper a)) p
                    = true).
    { destruct (Base.isOk this); [reflexivity |].
      cbn in Hc |- *. apply andb_true_iff in Hc. apply Hc. }
    rewrite shared_instance_cons.
    rewrite (shared_access_keeps_instance a this w Ha Hone).
    apply IH; assumption.
Qed.

(** C7, as the code has it. Whatever is done to an instance (method
    calls with whatever callbacks, reads of [data], assignments to
    [data]) it stays of the variant it was built as, with the same
    [_tag]. The payload is not fixed: it sits in the public field
    [data], which is not [readonly], and an assignment replaces it,
    whether made by the client or by a mapper callback while [throwMap]
    runs on a failure. The method bodies themselves assign nothing:
    accesses that neither assign nor pass a function to [throwMap] leave
    the payload in place, and on a success, where no callback runs, so
    do all accesses but assignments. *)
Theorem C7_variant_permanent_payload_replaceable :
  (forall (p : list (Access S E (W * E) M U)) (this : Result S E)
          (w : World (W * E)),
      Base.isOk (shared_instance p this w) = Base.isOk this
      /\ Base.isErr (shared_instance p this w) = Base.isErr this
      /\ Base._tag (shared_instance p this w) = Base._tag this)
  /\ (forall (p : list (Access S E (W * E) M U)) (this : Result S E)
             (w : World (W * E)),
        forallb (fun a => negb (may_replace_payload a)) p = true ->
        shared_instance p this w = this)
  /\ (forall (p : list (Access S E (W * E) M U)) (x : S)
             (w : World (W * E)),
        forallb (fun a => negb (is_assignment a)) p = true ->
        shared_instance p (Ok x) w = Ok x)
  /\ (forall (e : E) (f : E -> W * E -> Completion U U * (W * E))
             (w : World (W * E)),
        shared_instance [Invoke (CallThrowMap (Fn f : Mapper _ E M U))]
                        (Err e : Result S E) w
        = Err (snd (snd (f e (fst (store w), e)))))
  /\ (forall (x v : S) (w : World (W * E)),
        shared_access (AssignIfOk v : Access S E (W * E) M U) (Ok x) w
        = (Return ADone, Ok v, w))
  /\ (forall (e v : E) (w : World (W * E)),
        shared_access (AssignIfErr v : Access S E (W * E) M U) (Err e) w
        = (Return ADone, Err v, w)).
Proof.
  split; [| split; [| split; [| split; [| split]]]].
  - intros p this w.
    pose proof (shared_accesses_keep_variant p this w) as Hv.
    rewrite !isErr_negb_isOk, Hv. repeat split.
    destruct (shared_instance p this w), this;
      cbn in Hv; try discriminate Hv; reflexivity.
  - intros p this w Hp.
    assert (Hboth : forallb (fun a => negb (is_assignment a)) p = true
                    /\ forallb (fun a => negb (calls_function_mapper a)) p
                       = true).
    { clear this w. induction p as [| a p IH]; [split; reflexivity |].
      cbn [forallb] in Hp |- *. apply andb_true_iff in Hp.
      destruct Hp as [Ha Hp]. destruct (IH Hp) as [H1 H2].
      unfold may_replace_payload in Ha. rewrite negb_orb in Ha.
      apply andb_true_iff in Ha. destruct Ha as [Ha1 Ha2].
      rewrite Ha1, Ha2, H1, H2. split; reflexivity. }
    destruct Hboth as [H1 H2].
    apply shared_accesses_keep_instance; [exact H1 |].
    rewrite H2. apply orb_true_r.
  - intros p x w Hp.
    apply shared_accesses_keep_instance; [exact Hp | reflexivity].
  - intros e f w. unfold shared_instance. cbn [shared_accesses shared_access].
    rewrite shared_invoke_spec. cbn. rewrite call_spec. reflexivity.
  - reflexivity.
  - reflexivity.
Qed.

(** ** Repeated calls *)

Lemma invoke_documented (m : Method S E (W * E) M U) (this : Result S E)
    (w : World (W * E)) :
  fst (invoke m this w) = documented m this (store w).
Proof.
  destruct this as [x | e], m as [| | d | | [fixed | f]]; try reflexivity.
  cbn. rewrite call_spec. reflexivity.
Qed.

Lemma documented_pure (m : Method S E (W * E) M U) (this : Result S E)
    (s s' : W * E) :
  pure_method m -> documented m this s = documented m this s'.
Proof.
  destruct this as [x | e], m as [| | d | | [fixed | f]]; try reflexivity.
  cbn. intro Hf. destruct (Hf e s s') as [_ ->]. reflexivity.
Qed.

Lemma pure_invoke_store (m : Method S E (W * E) M U) (this : Result S E)
    (w : World (W * E)) :
  pure_method m -> store (snd (invoke m this w)) = store w.
Proof.
  destruct m as [| | d | | mapper]; try reflexivity.
  destruct this as [x | e]; [reflexivity |].
  destruct mapper as [fixed | f]; [reflexivity |].
  cbn. intro Hf. rewrite call_spec. cbn.
  apply (Hf e (store w) (store w)).
Qed.

Lemma invoke_count (m : Method S E (W * E) M U) (this : Result S E)
    (w : World (W * E)) :
  invocations (snd (invoke m this w))
  = (if Base.isErr this && calls_function_mapper (Invoke m)
     then 1 else 0) + invocations w.
Proof.
  destruct this as [x | e], m as [| | d | | [fixed | f]]; try reflexivity.
  cbn. rewrite call_spec. reflexivity.
Qed.

Lemma pure_shared_invoke (m : Method S E (W * E) M U) (this : Result S E)
    (w : World (W * E)) :
  pure_method m ->
  fst (fst (shared_invoke m this w)) = documented m this (store w)
  /\ snd (fst (shared_invoke m this w)) = this
  /\ fst (store (snd (shared_invoke m this w))) = fst (store w)
  /\ invocations (snd (shared_invoke m this w))
     = (if Base.isErr this && calls_function_mapper (Invoke m)
        then 1 else 0) + invocations w.
Proof.
  intro Hm. rewrite shared_invoke_spec. cbn [fst snd].
  rewrite invoke_documented, invoke_count.
  split; [apply documented_pure, Hm | split; [| split]].
  - destruct this as [x | e]; [reflexivity |].
    cbn [read_back]. rewrite (pure_invoke_store _ _ _ Hm). reflexivity.
  - rewrite (pure_invoke_store _ _ _ Hm). destruct this; reflexivity.
  - destruct this; reflexivity.
Qed.

Lemma pure_calls (ms : list (Method S E (W * E) M U)) (this : Result S E) :
  Forall (@pure_method S E (W * E) M U) ms ->
  forall w : World (W * E),
    shared_instance (map Invoke ms) this w = this
    /\ shared_outcomes (map Invoke ms) this w
       = map (fun m => documented m this (store w)) ms
    /\ fst (store (shared_world (map Invoke ms) this w)) = fst (store w)
    /\ invocations (shared_world (map Invoke ms) this w)
       = (if Base.isErr this then function_mapper_calls (map Invoke ms)
          else 0) + invocations w.
Proof.
  induction 1 as [| m ms Hm Hms IH]; intro w.
  - repeat split. destruct (Base.isErr this); reflexivity.
  - cbn [map].
    rewrite shared_instance_cons, shared_outcomes_cons, shared_world_cons.
    cbn [shared_access].
    destruct (@pure_shared_invoke m this w Hm)
      as (Hout & Hthis & Hstore & Hcount).
    rewrite Hthis, Hout.
    destruct (IH (snd (shared_invoke m this w))) as (H1 & H2 & H3 & H4).
    rewrite H1, H2, H3, H4, Hstore, Hcount.
    repeat split.
    + f_equal. apply map_ext_in. intros m' Hin.
      apply documented_pure.
      rewrite Forall_forall in Hms. apply Hms, Hin.
    + unfold function_mapper_calls. cbn [filter].
      destruct (Base.isErr this); [| reflexivity].
      cbn [andb].
      destruct (calls_function_mapper (Invoke m)); cbn [length].
      * rewrite Nat.add_assoc, (Nat.add_comm _ 1). reflexivity.
      * reflexivity.
Qed.

(** C10. Calls with pure mappers are deterministic and leave no trace
    but the count of callback calls. In any sequence of such calls on
    one instance, each call gives what the same call gives when made
    first, which is what the documentation says of it and depends on
    neither the world nor the earlier calls; so the same call repeated
    gives the same returned or thrown value every time. The instance
    and the rest of the program state end as they started, and the
    callbacks run are one per [throwMap] on a failure given a
    function. *)
Theorem C10_repeated_calls_same_outcome :
  (forall (this : Result S E) (ms : list (Method S E (W * E) M U))
          (w : World (W * E)),
      Forall (@pure_method S E (W * E) M U) ms ->
      shared_instance (map Invoke ms) this w = this
      /\ shared_outcomes (map Invoke ms) this w
         = map (fun m => fst (fst (shared_invoke m this w))) ms
      /\ shared_outcomes (map Invoke ms) this w
         = map (fun m => documented m this (store w)) ms
      /\ fst (store (shared_world (map Invoke ms) this w)) = fst (store w)
      /\ invocations (shared_world (map Invoke ms) this w)
         = (if Base.isErr this then function_mapper_calls (map Invoke ms)
            else 0) + invocations w)
  /\ (forall (this : Result S E) (m : Method S E (W * E) M U) (n : nat)
             (w w' : World (W * E)),
        pure_method m ->
        shared_outcomes (map Invoke (repeat m n)) this w
        = repeat (fst (fst (shared_invoke m this w'))) n).
Proof.
  split.
  - intros this ms w Hms.
    destruct (@pure_calls ms this Hms w) as (H1 & H2 & H3 & H4).
    repeat split; try assumption.
    rewrite H2. apply map_ext_in. intros m Hin.
    rewrite Forall_forall in Hms.
    symmetry. apply (@pure_shared_invoke m this w (Hms m Hin)).
  - intros this m n w w' Hm.
    assert (Hms : Forall (@pure_method S E (W * E) M U) (repeat m n)).
    { apply Forall_forall. intros m' Hin.
      apply repeat_spec in Hin. subst m'. exact Hm. }
    destruct (@pure_calls (repeat m n) this Hms w) as (_ & H2 & _).
    rewrite H2, map_repeat. f_equal.
    destruct (@pure_shared_invoke m this w' Hm) as (-> & _).
    apply documented_pure, Hm.
Qed.
End SharedInstance.

(** ** The [sum] example *)

Section Sum.
Variable NumberToString : float -> string.
Variable StringToNumber : string -> float.

(** The [sum] of the test suite does what the documentation says. *)
Lemma test_sum_as_documented (a b : value) :
  test_sum NumberToString StringToNumber a b = sum_documented a b.
Proof. destruct a, b; reflexivity. Qed.

(** The [sum] of [index.ts] agrees with it on two numbers and when
    neither argument is a number. *)
Lemma sum_as_documented_on_like_arguments (a b : value) :
  (typeof a =? "number")%string = (typeof b =? "number")%string ->
  sum NumberToString StringToNumber a b = sum_documented a b.
Proof. destruct a, b; intro H; try discriminate H; reflexivity. Qed.

(** With exactly one number among the arguments it returns a success. *)
Lemma sum_on_mixed_arguments (a b : value) :
  (typeof a =? "number")%string <> (typeof b =? "number")%string ->
  sum NumberToString StringToNumber a b
  = Ok (js_add NumberToString StringToNumber a b)
  /\ sum_documented a b = Err not_numbers.
Proof.
  destruct a, b; intro H; try (exfalso; apply H; reflexivity);
    split; reflexivity.
Qed.

End Sum.

(** ** Scenarios *)

Example numeric_success :
  Base.isOk (Ok 3 : Result nat string) = true
  /\ Base.isErr (Ok 3 : Result nat string) = false
  /\ Base.or (Ok 3 : Result nat string) 0 = 3
  /\ Base.throw (Ok 3 : Result nat string) = Return 3.
Proof. repeat split. Qed.

Example string_failure :
  Base.or bad_input 0 = 0 /\ Base.throw bad_input = Throw "bad input".
Proof. repeat split. Qed.

Lemma C3_mapped_raise_witness :
  Base.throwMap bad_input (Fn wrap : Mapper nat string string string) w0
  = (Throw (inr "wrapped: bad input"), {| store := 1; invocations := 1 |}).
Proof.
  apply (proj1 (proj2 (C3_throwMap_on_failure nat string nat string string))).
  reflexivity.
Defined.

Lemma C6_raise_witness :
  raises (fst (invoke by_wrap bad_input w0)) = true.
Proof.
  apply (proj2 (proj2 (proj2 (proj2
           (C6_only_throw_and_throwMap_raise nat string nat string string))))).
  split; reflexivity.
Defined.

Lemma C7_quiet_accesses_witness :
  shared_instance
    ([Invoke (CallThrowMap (Fixed "fixed")); ReadData; Invoke CallThrow;
      Invoke (CallOr 0)]
     : list (Access nat string (nat * string) string string))
    bad_input w1
  = bad_input.
Proof.
  apply (proj1 (proj2
           (C7_variant_permanent_payload_replaceable
              nat string nat string string))).
  reflexivity.
Defined.

(** C7, as stated, fails, in two ways.
    [const r = Ok(1); if (r.isOk()) r.data = 2;] type-checks, and [r]
    then holds [2]. And with [const r = Err("bad input")], the one call
    [r.throwMap(msg => { if (r.isErr()) r.data = "changed"; return "x" })]
    leaves [r] holding ["changed"], which a later [r.throw()] throws. *)
Lemma C7_payload_replaced_by_assignment :
  shared_instance
    [AssignIfOk 2 : Access nat string (nat * string) string string]
    (Ok 1) w1 = Ok 2
  /\ shared_instance [Invoke by_changing] bad_input w1 = Err "changed"
  /\ shared_outcomes [Invoke CallThrow; Invoke by_changing; Invoke CallThrow]
                     bad_input w1
     = [Throw (SPayload "bad input"); Throw (SMapped "x");
        Throw (SPayload "changed")]
  /\ ~ (forall (p : list (Access nat string (nat * string) string string))
               (this : Result nat string) (w : World (nat * string)),
           Base.isOk (shared_instance p this w) = Base.isOk this
           /\ Base.data (shared_instance p this w) = Base.data this).
Proof.
  split; [reflexivity | split; [reflexivity | split; [reflexivity |]]].
  intro H.
  destruct (H [Invoke by_changing] bad_input w1) as [_ Hdata].
  discriminate Hdata.
Qed.


Lemma C10_repeated_throwMap_witness :
  shared_outcomes (map Invoke (repeat by_wrapping 3)) bad_input w1
  = repeat (fst (fst (shared_invoke by_wrapping bad_input w1))) 3.
Proof.
  apply (proj2 (C10_repeated_calls_same_outcome
                  nat string nat string string)).
  simpl. intros e s s'. split; reflexivity.
Defined.

(** * Further properties of the code *)

(** ** What the discriminators tell about the other members *)

Section Narrowing.
Variables S E W M U : Type.

(** X1. An instance that answers [true] to [isOk()] was built by [Ok]
    from some [v], and every way of extracting gives that [v]: the field
    [data], [throw()], [or(d)] for any [d], and [throwMap(mapper)] for
    any mapper, which moreover leaves the world alone. *)
Theorem X1_isOk_narrows_to_success :
  forall r : Result S E,
    Base.isOk r = true ->
    exists v : S,
      r = Ok v
      /\ Base.data r = inl v
      /\ Base.throw r = Return v
      /\ (forall d : S, Base.or r d = v)
      /\ (forall (mapper : Mapper W E M U) (w : World W),
            Base.throwMap r mapper w = (Return v, w)).
Proof.
  intros [v | e] Hok; [| discriminate Hok].
  exists v. repeat split.
Qed.

(** X2. An instance that answers [true] to [isErr()] was built by [Err]
    from some [e]: the field [data] is [e], [throw()] throws [e],
    [or(d)] is [d], and [throwMap(mapper)] throws for every mapper. *)
Theorem X2_isErr_narrows_to_failure :
  forall r : Result S E,
    Base.isErr r = true ->
    exists e : E,
      r = Err e
      /\ Base.data r = inr e
      /\ Base.throw r = Throw e
      /\ (forall d : S, Base.or r d = d)
      /\ (forall (mapper : Mapper W E M U) (w : World W),
            raises (fst (Base.throwMap r mapper w)) = true).
Proof.
  intros [v | e] Herr; [discriminate Herr |].
  exists e. repeat split.
  intros [m | f] w; [reflexivity |].
  cbn. rewrite call_spec. reflexivity.
Qed.

(** X3. [throw()] is [throwMap] with the identity function as mapper:
    both return the same payload or throw the same error, and the store
    is the same afterwards. *)
Theorem X3_throw_is_throwMap_identity :
  forall (r : Result S E) (w : World W),
    fst (Base.throwMap r (Fn (fun e s => (Return e, s)) : Mapper W E M E) w)
    = lift (fun v => v) inr (Base.throw r)
    /\ store (snd (Base.throwMap r
                     (Fn (fun e s => (Return e, s)) : Mapper W E M E) w))
       = store w.
Proof. intros [v | e] w; split; reflexivity. Qed.
End Narrowing.

(** ** Callbacks over a whole client program *)

Section Callbacks.
Variables S E W M U : Type.

Lemma access_on_success_keeps_world (a : Access S E W M U)
    (this : Result S E) (w : World W) :
  Base.isOk this = true -> snd (access a this w) = w.
Proof.
  destruct this as [x | e]; [intros _ | intro H; discriminate H].
  destruct a as [[| | d | | mapper] | | v | v]; reflexivity.
Qed.

(** X4. On a success instance no client program runs a callback:
    whatever sequence of method calls, reads and assignments is made,
    with whatever mappers, the store and the number of callback calls
    are afterwards what they were. *)
Theorem X4_success_never_runs_a_callback :
  forall (p : list (Access S E W M U)) (this : Result S E) (w : World W),
    Base.isOk this = true ->
    snd (accesses p this w) = w.
Proof.
  induction p as [| a p IH]; intros this w Hok.
  - reflexivity.
  - rewrite accesses_cons, (access_on_success_keeps_world a this w Hok).
    apply IH. rewrite access_keeps_variant. exact Hok.
Qed.

Lemma access_on_failure_counts (a : Access S E W M U)
    (this : Result S E) (w : World W) :
  Base.isErr this = true ->
  invocations (snd (access a this w))
  = (if calls_function_mapper a then 1 else 0) + invocations w.
Proof.
  destruct this as [x | e]; [intro H; discriminate H | intros _].
  destruct a as [[| | d | | [m | f]] | | v | v]; try reflexivity.
  cbn. rewrite call_spec. reflexivity.
Qed.

(** X5. On a failure instance a client program runs one callback for
    each [throwMap] call that is given a function, and none otherwise:
    the number of callback calls grows by the number of such calls in
    the program. *)
Theorem X5_failure_runs_one_callback_per_throwMap :
  forall (p : list (Access S E W M U)) (this : Result S E) (w : World W),
    Base.isErr this = true ->
    invocations (snd (accesses p this w))
    = invocations w + function_mapper_calls p.
Proof.
  induction p as [| a p IH]; intros this w Herr.
  - cbn. rewrite Nat.add_0_r. reflexivity.
  - rewrite accesses_cons, IH.
    + rewrite (access_on_failure_counts a this w Herr).
      unfold function_mapper_calls. cbn [filter].
      destruct (calls_function_mapper a); cbn [length].
      * rewrite Nat.add_succ_r. cbn. rewrite Nat.add_comm. reflexivity.
      * reflexivity.
    + rewrite isErr_negb_isOk, access_keeps_variant, <- isErr_negb_isOk.
      exact Herr.
Qed.
End Callbacks.

(** ** The two [sum]s *)

Section Sums.
Variable NumberToString : float -> string.
Variable StringToNumber : string -> float.

Lemma typeof_number (v : value) :
  typeof v = "number" -> exists n, v = VNumber n.
Proof. destruct v; intro H; try discriminate H. eexists; reflexivity. Qed.

(** X6. The [sum] of the README and of the test suite returns [Ok] of
    the floating-point sum when both arguments are numbers and
    [Err("Both arguments are not numbers")] in every other case; no
    string concatenation or conversion ever reaches its result. *)
Theorem X6_test_sum_is_the_documented_sum :
  forall a b : value,
    test_sum NumberToString StringToNumber a b = sum_documented a b
    /\ (typeof a = "number" -> typeof b = "number" ->
        exists x y, a = VNumber x /\ b = VNumber y
                    /\ test_sum NumberToString StringToNumber a b
                       = Ok (VNumber (x + y)%float))
    /\ (typeof a <> "number" \/ typeof b <> "number" ->
        test_sum NumberToString StringToNumber a b
        = Err "Both arguments are not numbers").
Proof.
  intros a b. split; [| split].
  - destruct a, b; reflexivity.
  - intros Ha Hb.
    destruct (typeof_number _ Ha) as [x ->].
    destruct (typeof_number _ Hb) as [y ->].
    exists x, y. repeat split.
  - intros [H | H]; destruct a, b; try reflexivity;
      exfalso; apply H; reflexivity.
Qed.

(** X7. A success returned by the [sum] of the test suite holds a
    number, as its return type [Result<number, string>] says. *)
Theorem X7_test_sum_success_holds_a_number :
  forall a b v : value,
    test_sum NumberToString StringToNumber a b = Ok v ->
    typeof v = "number".
Proof.
  intros a b v H. destruct a, b; try discriminate H.
  cbv [test_sum typeof String.eqb Ascii.eqb Bool.eqb negb orb js_add
       is_string Ok] in H.
  injection H as <-. reflexivity.
Qed.

(** X8. The [sum] of [index.ts] and the [sum] of the test suite return
    the same result exactly when both arguments are numbers or neither
    is; with one number and one other value the first returns a success
    and the second the error. *)
Theorem X8_sums_agree_iff_arguments_alike :
  forall a b : value,
    sum NumberToString StringToNumber a b
    = test_sum NumberToString StringToNumber a b
    <-> (typeof a =? "number") = (typeof b =? "number").
Proof.
  intros a b. split.
  - intro H. destruct a, b; try reflexivity; discriminate H.
  - intro H. destruct a, b; try reflexivity; discriminate H.
Qed.

(** X9. A success returned by the [sum] of [index.ts] holds a number or
    a string, and with a string and a number as arguments, in either
    order, it does return a success, holding their concatenation: a
    string, where the declared return type [Result<number, string>]
    says number. *)
Theorem X9_sum_success_may_hold_a_string :
  forall a b : value,
    (forall v, sum NumberToString StringToNumber a b = Ok v ->
               typeof v = "number" \/ typeof v = "string")
    /\ ((typeof a = "string" /\ typeof b = "number")
        \/ (typeof a = "number" /\ typeof b = "string") ->
        sum NumberToString StringToNumber a b
        = Ok (VString (ToString NumberToString a
                       ++ ToString NumberToString b))).
Proof.
  intros a b. split.
  - intros v H.
    destruct a, b; try discriminate H;
      cbv [sum typeof String.eqb Ascii.eqb Bool.eqb negb andb orb js_add
           is_string Ok] in H;
      injection H as <-; (left; reflexivity) || (right; reflexivity).
  - intros [[Ha Hb] | [Ha Hb]];
      destruct a, b; try discriminate Ha; try discriminate Hb;
      reflexivity.
Qed.
End Sums.

(** ** The test suite *)

Lemma same_value_spec (l r : value) : same_value l r = true <-> l = r.
Proof.
  destruct l, r; cbn; try (split; [discriminate | discriminate]);
    try (split; reflexivity).
  - rewrite Bool.eqb_true_iff. split; [intros -> | intros [= ->]]; reflexivity.
  - rewrite Leibniz.eqb_spec. split; [intros -> | intros [= ->]]; reflexivity.
  - rewrite String.eqb_eq. split; [intros -> | intros [= ->]]; reflexivity.
Qed.

Lemma strict_equals_string (c : value) (s : string) :
  strict_equals c (VString s) = true <-> c = VString s.
Proof.
  destruct c; cbn; try (split; discriminate).
  rewrite String.eqb_eq. split; [intros -> | intros [= ->]]; reflexivity.
Qed.

Section Suite.
Variable NumberToString : float -> string.
Variable StringToNumber : string -> float.

(** X10. What the test callback checks of a function [f] put in the
    place of [sum]: a row [[a, b, c]] passes exactly when either [c] is
    the error message and [f(a, b)] is [Err] of that message, or [c] is
    not the message, [f(a, b)] is [Ok(c)] and [c] is [a + b]. *)
Theorem X10_test_accepts_exactly_the_expected_result :
  forall (f : value -> value -> Result value string) (a b c : value),
    ResultTest.test NumberToString StringToNumber f (a, b, c) = true
    <-> (c = VString "Both arguments are not numbers"
         /\ f a b = Err "Both arguments are not numbers")
        \/ (c <> VString "Both arguments are not numbers"
            /\ f a b = Ok c
            /\ c = js_add NumberToString StringToNumber a b).
Proof.
  intros f a b c. unfold ResultTest.test.
  destruct (f a b) as [v | e]; cbn -[same_value strict_equals js_add].
  - rewrite !andb_true_iff, negb_true_iff, !same_value_spec.
    rewrite <- not_true_iff_false, same_value_spec. split.
    + intros [[[Hne _] Hor] ->]. right.
      destruct (strict_equals c (VString "Both arguments are not numbers"))
        eqn:Hs.
      * apply strict_equals_string in Hs. contradiction.
      * auto.
    + intros [[_ H] | [Hne [[= ->] Hadd]]]; [discriminate H |].
      destruct (strict_equals c (VString "Both arguments are not numbers"))
        eqn:Hs.
      * apply strict_equals_string in Hs. contradiction.
      * auto.
  - rewrite !andb_true_iff, !same_value_spec. split.
    + intros [[-> _] [= ->]]. left. split; reflexivity.
    + intros [[-> [= ->]] | [_ [H _]]]; [| discriminate H].
      repeat split.
Qed.

(** X11. The suite passes: each of its six rows passes with the [sum] it
    defines, and so would any row [[a, b, c]] whose [c] is what the
    documented [sum] returns or throws for [a] and [b]. *)
Theorem X11_test_suite_passes :
  forallb (ResultTest.test NumberToString StringToNumber
             (test_sum NumberToString StringToNumber))
          ResultTest.data = true
  /\ (forall a b : value,
        ResultTest.test NumberToString StringToNumber
          (test_sum NumberToString StringToNumber)
          (a, b, outcome_value (sum_documented a b)) = true).
Proof.
  split; [reflexivity |].
  intros a b.
  destruct a as [| | ba | x | sa], b as [| | bb | y | sb]; try reflexivity.
  cbn -[PrimFloat.add]. rewrite (proj2 (Leibniz.eqb_spec _ _) eq_refl).
  reflexivity.
Qed.

(** X12. The same suite run on the [sum] of [index.ts] fails: rows 3, 4
    and 6 of its table do not pass, and no row that expects the error
    message passes when exactly one of its two values is a number. *)
Theorem X12_test_suite_rejects_index_sum :
  map (ResultTest.test NumberToString StringToNumber
         (sum NumberToString StringToNumber))
      ResultTest.data
  = [true; true; false; false; true; false]
  /\ (forall a b : value,
        (typeof a =? "number") <> (typeof b =? "number") ->
        ResultTest.test NumberToString StringToNumber
          (sum NumberToString StringToNumber)
          (a, b, VString "Both arguments are not numbers") = false).
Proof.
  split; [reflexivity |].
  intros a b H.
  destruct (sum_on_mixed_arguments NumberToString StringToNumber a b H)
    as [Hsum _].
  unfold ResultTest.test. rewrite Hsum. reflexivity.
Qed.
End Suite.

(** ** The further properties on the scenarios *)

Lemma X1_success_witness :
  exists v : nat,
    (Ok 3 : Result nat string) = Ok v
    /\ Base.throw (Ok 3 : Result nat string) = Return v
    /\ Base.throwMap (Ok 3 : Result nat string)
                     (Fn wrap : Mapper nat string string string) w0
       = (Return v, w0).
Proof.
  destruct (@X1_isOk_narrows_to_success nat string nat string string
              (Ok 3) eq_refl) as [v (Hv & _ & Hthrow & _ & Hmap)].
  exists v. split; [exact Hv | split; [exact Hthrow | apply Hmap]].
Defined.

Lemma X2_failure_witness :
  exists e : string,
    bad_input = Err e
    /\ Base.throw bad_input = Throw e
    /\ raises (fst (Base.throwMap bad_input
                      (Fn wrap : Mapper nat string string string) w0))
       = true.
Proof.
  destruct (@X2_isErr_narrows_to_failure nat string nat string string
              bad_input eq_refl) as [e (He & _ & Hthrow & _ & Hmap)].
  exists e. split; [exact He | split; [exact Hthrow | apply Hmap]].
Defined.

Lemma X4_success_witness :
  snd (accesses [Invoke by_wrap; ReadData; AssignIfOk 5; Invoke by_wrap]
                (Ok 3) w0)
  = w0.
Proof.
  apply (@X4_success_never_runs_a_callback nat string nat string string).
  reflexivity.
Defined.

Lemma X5_failure_witness :
  invocations
    (snd (accesses [Invoke by_wrap; Invoke CallThrow; ReadData;
                    Invoke by_wrap; Invoke (CallThrowMap (Fixed "fixed"))]
                   bad_input w0))
  = invocations w0
    + function_mapper_calls
        [Invoke by_wrap; Invoke CallThrow; ReadData;
         Invoke by_wrap; Invoke (CallThrowMap (Fixed "fixed"))].
Proof.
  apply (@X5_failure_runs_one_callback_per_throwMap
           nat string nat string string).
  reflexivity.
Defined.

Lemma X6_numbers_witness :
  exists x y : float,
    VNumber 1 = VNumber x /\ VNumber 2 = VNumber y
    /\ test_sum two_as_string no_parsing (VNumber 1) (VNumber 2)
       = Ok (VNumber (x + y)%float).
Proof.
  apply (proj1 (proj2 (X6_test_sum_is_the_documented_sum
                         two_as_string no_parsing (VNumber 1) (VNumber 2))));
    reflexivity.
Defined.

Lemma X7_number_witness : typeof (VNumber 3) = "number".
Proof.
  apply (X7_test_sum_success_holds_a_number
           two_as_string no_parsing (VNumber 1) (VNumber 2)).
  reflexivity.
Defined.

Lemma X8_alike_witness :
  sum two_as_string no_parsing (VString "a") (VString "b")
  = test_sum two_as_string no_parsing (VString "a") (VString "b").
Proof.
  apply (proj2 (X8_sums_agree_iff_arguments_alike
                  two_as_string no_parsing (VString "a") (VString "b"))).
  reflexivity.
Defined.

Lemma X9_string_witness :
  sum two_as_string no_parsing (VString "a") (VNumber 2)
  = Ok (VString (ToString two_as_string (VString "a")
                 ++ ToString two_as_string (VNumber 2))).
Proof.
  apply (proj2 (X9_sum_success_may_hold_a_string
                  two_as_string no_parsing (VString "a") (VNumber 2))).
  left. split; reflexivity.
Defined.

Lemma X10_row_witness :
  ResultTest.test two_as_string no_parsing (test_sum two_as_string no_parsing)
                  (VNumber 1, VNumber 2, VNumber 3) = true.
Proof.
  apply (proj2 (X10_test_accepts_exactly_the_expected_result
                  two_as_string no_parsing (test_sum two_as_string no_parsing)
                  (VNumber 1) (VNumber 2) (VNumber 3))).
  right. split; [intro H; discriminate H | split; reflexivity].
Defined.

Lemma X12_row_witness :
  ResultTest.test two_as_string no_parsing (sum two_as_string no_parsing)
                  (VString "a", VNumber 2,
                   VString "Both arguments are not numbers") = false.
Proof.
  apply (proj2 (X12_test_suite_rejects_index_sum two_as_string no_parsing)).
  simpl. intro H. discriminate H.
Defined.
